(** * fastapi_errors: typed errors, their handlers and the registrar

    A shallow embedding of [fastapi_errors/errors.py].  The module is a thin
    layer over Starlette: two exception base classes, one handler factory per
    base class, and [register_errors], which binds error classes to handlers
    in an application.

    What belongs to Python or to Starlette is kept as data:
    - a class is its [__mro__], the tuple Python computes when the class is
      created and that [issubclass], [isinstance] and attribute lookup walk;
    - an exception instance is its class, its [__dict__] and its [args];
    - a [JSONResponse] and a [WebSocketException] are the arguments their
      constructors receive;
    - a Starlette application is the ordered list of the
      [add_exception_handler] calls it has received;
    - an [await] is sequential composition (one coroutine, no interleaving),
      and a hook is a terminating computation that may raise. *)

From Stdlib Require Import ZArith Lia DecimalString.
From stdpp Require Import base option list gmap strings.

(** ** Python values *)

#[warnings="-register-all"]
Inductive pyvalue : Type :=
| VNone
| VBool (b : bool)
| VInt (z : Z)
| VStr (s : string)
| VList (items : list pyvalue)
| VDict (items : gmap string pyvalue).

(** A [dict] with [str] keys: keyword arguments, a class body, an instance
    [__dict__].  Python compares dicts key by key, whatever the insertion
    order, and so does [gmap] equality. *)
Abbreviation namespace := (gmap string pyvalue).

(** ** Exceptions raised by the module, and results *)

Inductive pyexc : Type :=
| TypeError (msg : string)
| AttributeError (msg : string)
| WebSocketException (code reason : pyvalue)
| OtherException (cls_name : string) (args : list pyvalue).

Inductive result (A : Type) : Type :=
| Ok (a : A)
| Raise (e : pyexc).
Arguments Ok {A} a.
Arguments Raise {A} e.

(** Code that reads or changes a state [S] and may raise.  The state is
    returned in both cases: what was changed before a [raise] stays
    changed. *)
Definition M (S A : Type) : Type := S → result A * S.

Module Eff.
Definition ret {S A} (a : A) : M S A := λ s, (Ok a, s).
Definition raise {S A} (e : pyexc) : M S A := λ s, (Raise e, s).
Definition bind {S A B} (m : M S A) (k : A → M S B) : M S B :=
  λ s, match m s with
       | (Ok a, s') => k a s'
       | (Raise e, s') => (Raise e, s')
       end.
Definition lift {S A} (r : result A) : M S A := λ s, (r, s).
Definition get {S} : M S S := λ s, (Ok s, s).
Definition modify {S} (f : S → S) : M S unit := λ s, (Ok tt, f s).
End Eff.

Definition result_bind {A B} (r : result A) (k : A → result B) : result B :=
  match r with
  | Ok a => k a
  | Raise e => Raise e
  end.

Declare Scope py_scope.
Delimit Scope py_scope with py.
Notation "'do' x <- m ; k" := (Eff.bind m (λ x, k))
  (at level 10, x name, m at level 100, k at level 200) : py_scope.
Notation "m ;; k" := (Eff.bind m (λ _, k))
  (at level 100, k at level 200, right associativity) : py_scope.
Notation "'try' x <- r ; k" := (result_bind r (λ x, k))
  (at level 10, x name, r at level 100, k at level 200) : py_scope.
Open Scope py_scope.

(** ** Requests, connections and hooks *)

(** Starlette's [Request] and [WebSocket] are both an [HTTPConnection] over
    an ASGI scope; the module only passes them on to hooks. *)
Record HTTPConnection : Type := {
  scope_type : string;
  scope_path : string;
  scope_headers : list (string * string);
}.
Abbreviation Request := HTTPConnection.
Abbreviation WebSocket := HTTPConnection.

(** What a hook can act on outside the error: the records it has logged. *)
Definition world : Type := list string.

(** The body of an [async def hook(self, request)].  It reads attributes of
    [self] through the lookup function it is given, acts on the world, and
    returns [None] or raises.  It has no way to change the error it is
    called on: the spec asks that a hook does not alter the response. *)
Definition hook_impl : Type :=
  (string → option pyvalue) → HTTPConnection → M world unit.

(** ** Classes *)

(** The two base classes the module defines. *)
Inductive base_class : Type :=
| BaseHTTPError
| BaseWebSocketError.

(** One class object.  [Builtin] stands for a class of Python itself
    ([object], [Exception], [ValueError], ...); a [UserClass] is a class
    statement of the application, with the constants its body assigns and
    the [hook] it defines, if any.  These are the two things the module
    asks of a subclass; [__init__], [to_dict] and [to_response] are the
    ones of the base class throughout.  A body that assigns [name] hides the
    [name] property of the base classes, as any other assignment hides an
    inherited one. *)
Inductive klass : Type :=
| Builtin (name : string)
| Base (b : base_class)
| UserClass (name : string) (body : namespace) (hook : option hook_impl).

(** A class with its ancestors in method resolution order:
    [cls.__mro__ = (cls, ...)]. *)
Record pyclass : Type := {
  cls_self : klass;
  cls_supers : list klass;
}.

Definition mro (cls : pyclass) : list klass := cls_self cls :: cls_supers cls.

Definition base_name (b : base_class) : string :=
  match b with
  | BaseHTTPError => "BaseHTTPError"
  | BaseWebSocketError => "BaseWebSocketError"
  end.

(** [k.__name__] *)
Definition klass_name (k : klass) : string :=
  match k with
  | Builtin name => name
  | Base b => base_name b
  | UserClass name _ _ => name
  end.

(** [cls.__name__] *)
Definition cls_name (cls : pyclass) : string := klass_name (cls_self cls).

(** [k is b], for one of the module's base classes. *)
Definition is_base (b : base_class) (k : klass) : bool :=
  match k, b with
  | Base BaseHTTPError, BaseHTTPError => true
  | Base BaseWebSocketError, BaseWebSocketError => true
  | _, _ => false
  end.

(** [issubclass(cls, b)]: [b] occurs in [cls.__mro__]. *)
Definition issubclass (cls : pyclass) (b : base_class) : bool :=
  existsb (is_base b) (mro cls).

(** The names a class object binds to plain values in its own [__dict__].
    [BaseHTTPError] only annotates [status_code] and [message];
    [BaseWebSocketError] only annotates [code] and assigns
    [reason = None].  A [Builtin] stands for a class that binds none of the
    names the module reads. *)
Definition klass_dict (k : klass) : namespace :=
  match k with
  | Builtin _ => ∅
  | Base BaseHTTPError => ∅
  | Base BaseWebSocketError => {[ "reason" := VNone ]}
  | UserClass _ body _ => body
  end.

(** Lookup along an MRO: the first class that binds the name wins. *)
Fixpoint mro_lookup (ks : list klass) (attr : string) : option pyvalue :=
  match ks with
  | [] => None
  | k :: ks' =>
      match klass_dict k !! attr with
      | Some v => Some v
      | None => mro_lookup ks' attr
      end
  end.

(** [cls.attr] *)
Definition type_getattr (cls : pyclass) (attr : string) : result pyvalue :=
  match mro_lookup (mro cls) attr with
  | Some v => Ok v
  | None =>
      Raise (AttributeError
        ("type object '" +:+ cls_name cls +:+ "' has no attribute '"
         +:+ attr +:+ "'"))
  end.

(** ** Instances *)

Record instance : Type := {
  ob_type : pyclass;
  ob_dict : namespace;
  ob_args : list pyvalue;
}.

(** [isinstance(error, b)] *)
Definition isinstance (error : instance) (b : base_class) : bool :=
  issubclass (ob_type error) b.

(** [self.attr] for a plain attribute: the instance [__dict__] first, then
    the class. *)
Definition lookup_attr (self : instance) (attr : string) : option pyvalue :=
  match ob_dict self !! attr with
  | Some v => Some v
  | None => mro_lookup (mro (ob_type self)) attr
  end.

Definition getattr (self : instance) (attr : string) : result pyvalue :=
  match lookup_attr self attr with
  | Some v => Ok v
  | None =>
      Raise (AttributeError
        ("'" +:+ cls_name (ob_type self) +:+ "' object has no attribute '"
         +:+ attr +:+ "'"))
  end.

(** ** [BaseHTTPError] *)

Definition ERROR_TYPE_HEADER : string := "X-Error-Type".

(** Calling [cls] with keyword arguments [context], for a class whose
    [__init__] is the one of [BaseHTTPError].  A keyword named [self]
    collides with the first parameter, and Python rejects the call before
    the body runs; the body reads [self.__class__.message] for
    [Exception.__init__] and stores the keywords as [self.context]. *)
Definition BaseHTTPError_init (cls : pyclass) (context : namespace)
  : result instance :=
  match context !! "self" with
  | Some _ =>
      Raise (TypeError
        "BaseHTTPError.__init__() got multiple values for argument 'self'")
  | None =>
      try message <- type_getattr cls "message";
      Ok {| ob_type := cls;
            ob_dict := {[ "context" := VDict context ]};
            ob_args := [message] |}
  end.

(** What a class object holds under [name]: the property the two base
    classes define, or the value a class body assigns. *)
Inductive name_attr : Type :=
| NameProperty
| NameValue (v : pyvalue).

Fixpoint mro_name (ks : list klass) : option name_attr :=
  match ks with
  | [] => None
  | Base _ :: _ => Some NameProperty
  | k :: ks' =>
      match klass_dict k !! "name" with
      | Some v => Some (NameValue v)
      | None => mro_name ks'
      end
  end.

(** [self.name].  The first class of the MRO that holds [name] decides.  If
    it is a base class, that is the property, which returns
    [self.__class__.__name__] and, being a property, is not hidden by the
    instance [__dict__].  If it is a class that assigns [name], that is a
    plain class attribute: the instance [__dict__] goes first, then the
    assigned value. *)
Definition name (self : instance) : result pyvalue :=
  match mro_name (mro (ob_type self)) with
  | Some NameProperty => Ok (VStr (cls_name (ob_type self)))
  | Some (NameValue v) =>
      match ob_dict self !! "name" with
      | Some v' => Ok v'
      | None => Ok v
      end
  | None =>
      match ob_dict self !! "name" with
      | Some v' => Ok v'
      | None =>
          Raise (AttributeError
            ("'" +:+ cls_name (ob_type self)
             +:+ "' object has no attribute 'name'"))
      end
  end.

Definition to_dict (self : instance) : result namespace :=
  try message <- getattr self "message";
  try context <- getattr self "context";
  Ok {[ "message" := message; "context" := context ]}.

(** The arguments of [JSONResponse(content, status_code=..., headers=...)]. *)
Record Response : Type := JSONResponse {
  content : namespace;
  status_code : pyvalue;
  headers : namespace;
}.

Definition to_response (self : instance) (request : Request)
  : result Response :=
  try body <- to_dict self;
  try code <- getattr self "status_code";
  try type_name <- name self;
  Ok (JSONResponse body code {[ ERROR_TYPE_HEADER := type_name ]}).

(** [async def hook(self, request): return] *)
Definition BaseHTTPError_hook : hook_impl := λ _ _, Eff.ret tt.

(** ** [BaseWebSocketError] *)

(** [BaseWebSocketError] has no [__init__] of its own: an instance is built
    by [Exception.__init__] from positional arguments. *)
Definition BaseWebSocketError_new (cls : pyclass) (args : list pyvalue)
  : instance :=
  {| ob_type := cls; ob_dict := ∅; ob_args := args |}.

(** [async def hook(self, websocket): return] *)
Definition BaseWebSocketError_hook : hook_impl := λ _ _, Eff.ret tt.

(** ** Calling [error.hook(...)] *)

(** The [hook] a class object defines itself. *)
Definition klass_hook (k : klass) : option hook_impl :=
  match k with
  | Builtin _ => None
  | Base BaseHTTPError => Some BaseHTTPError_hook
  | Base BaseWebSocketError => Some BaseWebSocketError_hook
  | UserClass _ _ h => h
  end.

Fixpoint mro_hook (ks : list klass) : option hook_impl :=
  match ks with
  | [] => None
  | k :: ks' =>
      match klass_hook k with
      | Some h => Some h
      | None => mro_hook ks'
      end
  end.

(** [await error.hook(conn)]: the method is looked up on the class of the
    error and run to completion. *)
Definition hook (error : instance) (conn : HTTPConnection) : M world unit :=
  match mro_hook (mro (ob_type error)) with
  | Some body => body (lookup_attr error) conn
  | None =>
      Eff.raise (AttributeError
        ("'" +:+ cls_name (ob_type error)
         +:+ "' object has no attribute 'hook'"))
  end.

(** ** The handlers *)

(** The message of the [TypeError] a handler raises on an error of the
    wrong family. *)
Definition not_derived_message (error : instance) (b : base_class) : string :=
  "Exception `" +:+ cls_name (ob_type error)
  +:+ "` should be derived from `" +:+ base_name b +:+ "`".

(** [handle_error] of [create_http_error_handler]. *)
Definition http_handle_error (request : Request) (error : instance)
  : M world Response :=
  if negb (isinstance error BaseHTTPError) then
    Eff.raise (TypeError (not_derived_message error BaseHTTPError))
  else
    hook error request ;;
    Eff.lift (to_response error request).

(** [handle_error] of [create_websocket_error_handler]. *)
Definition websocket_handle_error (websocket : WebSocket) (error : instance)
  : M world unit :=
  if negb (isinstance error BaseWebSocketError) then
    Eff.raise (TypeError (not_derived_message error BaseWebSocketError))
  else
    hook error websocket ;;
    do code <- Eff.lift (getattr error "code");
    do reason <- Eff.lift (getattr error "reason");
    Eff.raise (WebSocketException code reason).

(** ** Function objects, the application and the registrar *)

(** A handler is a function object: each call of a factory makes a new one,
    told apart from every other by its identity, around one of the two
    [handle_error] bodies. *)
Inductive handler_code : Type :=
| HTTPHandler
| WebSocketHandler.

Record handler : Type := {
  fn_id : nat;
  fn_code : handler_code;
}.

(** The application, as far as this module touches it: the bindings made
    through [add_exception_handler], oldest first. *)
Record Starlette : Type := {
  exception_handlers : list (pyclass * handler);
}.

(** The state the registrar runs in: the identity of the next function
    object, and the application it was given. *)
Record runtime : Type := {
  next_fn : nat;
  app : Starlette;
}.

Definition new_function (code : handler_code) : M runtime handler :=
  λ rt, (Ok {| fn_id := next_fn rt; fn_code := code |},
         {| next_fn := S (next_fn rt); app := app rt |}).

Definition create_http_error_handler : M runtime handler :=
  new_function HTTPHandler.

Definition create_websocket_error_handler : M runtime handler :=
  new_function WebSocketHandler.

(** [app.add_exception_handler(cls, h)] *)
Definition add_exception_handler (cls : pyclass) (h : handler)
  : M runtime unit :=
  Eff.modify (λ rt,
    {| next_fn := next_fn rt;
       app := {| exception_handlers :=
                   exception_handlers (app rt) ++ [(cls, h)] |} |}).

Definition neither_message (error_cls : pyclass) : string :=
  ("Exception `" +:+ cls_name error_cls
   +:+ " should be derived from either ")
  +:+ ("`" +:+ base_name BaseHTTPError +:+ "` or `"
       +:+ base_name BaseWebSocketError +:+ "`").

(** The body of the [for] loop of [register_errors]. *)
Definition register_error (error_cls : pyclass) : M runtime unit :=
  if issubclass error_cls BaseHTTPError then
    do h <- create_http_error_handler;
    add_exception_handler error_cls h
  else if issubclass error_cls BaseWebSocketError then
    do h <- create_websocket_error_handler;
    add_exception_handler error_cls h
  else
    Eff.raise (TypeError (neither_message error_cls)).

Fixpoint register_errors (error_classes : list pyclass) : M runtime unit :=
  match error_classes with
  | [] => Eff.ret tt
  | error_cls :: rest =>
      register_error error_cls ;;
      register_errors rest
  end.

(** Calling a handler the way the application does: with the request or
    connection and the error.  The request handler returns a response; the
    connection handler returns [None] if it returns at all. *)
Definition call_handler (h : handler) (conn : HTTPConnection)
    (error : instance) : M world (option Response) :=
  match fn_code h with
  | HTTPHandler =>
      do response <- http_handle_error conn error;
      Eff.ret (Some response)
  | WebSocketHandler =>
      websocket_handle_error conn error ;;
      Eff.ret None
  end.

(** The names [fastapi_errors/__init__.py] adds for the same functions. *)
Definition create_http_exception_handler := create_http_error_handler.
Definition create_websocket_exception_handler := create_websocket_error_handler.
Definition register_exceptions := register_errors.

(** ** Vocabulary for the statements *)

(** [cls] belongs to one of the two families. *)
Definition in_family (cls : pyclass) : bool :=
  issubclass cls BaseHTTPError || issubclass cls BaseWebSocketError.

(** The body of the handler [register_error] builds for a class of a
    family. *)
Definition code_for (cls : pyclass) : handler_code :=
  if issubclass cls BaseHTTPError then HTTPHandler else WebSocketHandler.

(** The bindings made for [classes] when the first function object gets
    identity [n]: one per class, in order, each with the next identity. *)
Definition bindings (n : nat) (classes : list pyclass)
  : list (pyclass * handler) :=
  imap (λ i cls, (cls, {| fn_id := n + i; fn_code := code_for cls |})) classes.

(** The classes in front of the first one that is in neither family. *)
Fixpoint family_prefix (classes : list pyclass) : list pyclass :=
  match classes with
  | [] => []
  | cls :: rest => if in_family cls then cls :: family_prefix rest else []
  end.

(** The first class that is in neither family. *)
Fixpoint first_outsider (classes : list pyclass) : option pyclass :=
  match classes with
  | [] => None
  | cls :: rest => if in_family cls then first_outsider rest else Some cls
  end.

(** [sub in s] on [str]. *)
Fixpoint contains (sub s : string) : bool :=
  String.prefix sub s
  || match s with
     | EmptyString => false
     | String _ s' => contains sub s'
     end.

(** The factory that builds handlers around a given body, the family the
    body expects, and what it does last: build the response, or signal that
    the connection is to be closed. *)
Definition factory (code : handler_code) : M runtime handler :=
  match code with
  | HTTPHandler => create_http_error_handler
  | WebSocketHandler => create_websocket_error_handler
  end.

Definition expected_base (code : handler_code) : base_class :=
  match code with
  | HTTPHandler => BaseHTTPError
  | WebSocketHandler => BaseWebSocketError
  end.

Definition terminal_action (code : handler_code) (error : instance)
    (conn : HTTPConnection) : result (option Response) :=
  match code with
  | HTTPHandler =>
      try response <- to_response error conn;
      Ok (Some response)
  | WebSocketHandler =>
      try code <- getattr error "code";
      try reason <- getattr error "reason";
      Raise (WebSocketException code reason)
  end.

(** ** The classes of the test suite, and a few more *)

Module TestApp.

Definition Exception_mro : list klass :=
  [Builtin "Exception"; Builtin "BaseException"; Builtin "object"].

Definition ValueError : pyclass :=
  {| cls_self := Builtin "ValueError"; cls_supers := Exception_mro |}.

Definition KeyError : pyclass :=
  {| cls_self := Builtin "KeyError";
     cls_supers := Builtin "LookupError" :: Exception_mro |}.

(** [logging.log(logging.ERROR, self.message)] *)
Definition log_message : hook_impl :=
  λ self _ w,
    match self "message" with
    | Some (VStr m) => (Ok tt, w ++ [m])
    | Some _ => (Ok tt, w ++ ["<message>"])
    | None => (Raise (AttributeError "message"), w)
    end.

Definition AuthorizationError : pyclass :=
  {| cls_self :=
       UserClass "AuthorizationError"
         {[ "message" := VStr "Failed to authorize";
            "status_code" := VInt 401 ]}
         (Some log_message);
     cls_supers := Base BaseHTTPError :: Exception_mro |}.

Definition InvalidRequestError : pyclass :=
  {| cls_self :=
       UserClass "InvalidRequestError"
         {[ "message" := VStr "Invalid request";
            "status_code" := VInt 400 ]}
         None;
     cls_supers := Base BaseHTTPError :: Exception_mro |}.

Definition NoUserFoundError : pyclass :=
  {| cls_self :=
       UserClass "NoUserFoundError"
         {[ "message" := VStr "No such user";
            "status_code" := VInt 404 ]}
         None;
     cls_supers := Base BaseHTTPError :: Exception_mro |}.

(** A connection error with the default hook and the default reason. *)
Definition GoingAway : pyclass :=
  {| cls_self := UserClass "GoingAway" {[ "code" := VInt 1001 ]} None;
     cls_supers := Base BaseWebSocketError :: Exception_mro |}.

(** A connection error that declares a reason and logs it in its hook. *)
Definition log_reason : hook_impl :=
  λ self _ w,
    match self "reason" with
    | Some (VStr r) => (Ok tt, w ++ [r])
    | _ => (Ok tt, w ++ ["closed"])
    end.

Definition PolicyViolation : pyclass :=
  {| cls_self :=
       UserClass "PolicyViolation"
         {[ "code" := VInt 1008; "reason" := VStr "policy violation" ]}
         (Some log_reason);
     cls_supers := Base BaseWebSocketError :: Exception_mro |}.

(** [class SessionError(BaseHTTPError, BaseWebSocketError)] *)
Definition SessionError : pyclass :=
  {| cls_self :=
       UserClass "SessionError"
         {[ "message" := VStr "Session lost";
            "status_code" := VInt 440;
            "code" := VInt 4000 ]}
         None;
     cls_supers :=
       Base BaseHTTPError :: Base BaseWebSocketError :: Exception_mro |}.

(** [AuthorizationError(reason="no token")] *)
Definition no_token : namespace := {[ "reason" := VStr "no token" ]}.

Definition unauthorized : instance :=
  {| ob_type := AuthorizationError;
     ob_dict := {[ "context" := VDict no_token ]};
     ob_args := [VStr "Failed to authorize"] |}.

(** [NoUserFoundError(user="1")] *)
Definition no_user : instance :=
  {| ob_type := NoUserFoundError;
     ob_dict := {[ "context" := VDict {[ "user" := VStr "1" ]} ]};
     ob_args := [VStr "No such user"] |}.

Definition get_user1 : Request :=
  {| scope_type := "http"; scope_path := "/user-1"; scope_headers := [] |}.

Definition ws_feed : WebSocket :=
  {| scope_type := "websocket"; scope_path := "/feed";
     scope_headers := [] |}.

Definition fresh_app : runtime :=
  {| next_fn := 0; app := {| exception_handlers := [] |} |}.

End TestApp.

(** ** [__str__] and [__repr__] *)

(** The f-strings of the module render attribute values with Python's
    [format] (a plain replacement field) and [repr] (a field with [!r]).
    Both belong to Python and are parameters here.  The fields are
    evaluated from left to right. *)
Definition BaseHTTPError_str (format : pyvalue → string) (self : instance)
  : result string :=
  try code <- getattr self "status_code";
  try message <- getattr self "message";
  Ok (format code +:+ ": " +:+ format message).





(** ** The base classes as class objects, and more vocabulary *)

Definition Exception_mro : list klass :=
  [Builtin "Exception"; Builtin "BaseException"; Builtin "object"].








(** ** The routes of the test suite *)

(** How a call of application code ends: with a value, with an error of the
    application raised, or with an exception of Python itself. *)
Inductive outcome (A : Type) : Type :=
| Returned (a : A)
| Raised (error : instance)
| Crashed (e : pyexc).
Arguments Returned {A} a.
Arguments Raised {A} error.
Arguments Crashed {A} e.

(** [raise cls(...)] with keyword arguments [context], for a request error
    class. *)
Definition raise_error {A} (cls : pyclass) (context : namespace) : outcome A :=
  match BaseHTTPError_init cls context with
  | Ok error => Raised error
  | Raise e => Crashed e
  end.

Module TestRoutes.

(** [authorize] of [tests/test_fastapi.py]; [token] is the header of that
    name, [None] when the request has none. *)
Definition authorize (token : option string) : outcome unit :=
  match token with
  | None =>
      raise_error TestApp.AuthorizationError
        {[ "reason" := VStr "no token" ]}
  | Some t =>
      if negb (String.eqb t "TOKEN") then
        raise_error TestApp.AuthorizationError
          {[ "reason" := VStr "no token"; "token" := VStr t ]}
      else Returned tt
  end.

(** [get_user]; [user] is the path segment, [None] for the route [/]. *)
Definition get_user (user : option string) : outcome namespace :=
  match user with
  | None =>
      raise_error TestApp.InvalidRequestError
        {[ "reason" := VStr "no user" ]}
  | Some u =>
      if negb (contains "user" u) then
        raise_error TestApp.NoUserFoundError {[ "user" := VStr u ]}
      else Returned {[ "user" := VStr u ]}
  end.

(** A request to the router: the dependency [authorize] runs first, then
    the endpoint. *)
Definition endpoint (token user : option string) : outcome namespace :=
  match authorize token with
  | Returned _ => get_user user
  | Raised error => Raised error
  | Crashed e => Crashed e
  end.

(** The [app] fixture: the three error classes registered on a new
    application. *)
Definition registered : runtime :=
  (register_errors
     [TestApp.AuthorizationError; TestApp.InvalidRequestError;
      TestApp.NoUserFoundError]
     TestApp.fresh_app).2.






(** Python's [str] on [None], booleans, integers and strings, to stand for
    [format] and [repr] where an example needs them; containers are not
    rendered. *)
Definition show (v : pyvalue) : string :=
  match v with
  | VNone => "None"
  | VBool true => "True"
  | VBool false => "False"
  | VInt z => DecimalString.NilZero.string_of_int (Z.to_int z)
  | VStr s => s
  | VList _ | VDict _ => "..."
  end.

End TestRoutes.

(** * Properties *)

(** ** Running monadic code *)

Lemma bind_ok {S A B} (m : M S A) (k : A → M S B) s a s' :
  m s = (Ok a, s') → Eff.bind m k s = k a s'.
Proof. intros Hm. unfold Eff.bind. by rewrite Hm. Qed.

Lemma bind_raise {S A B} (m : M S A) (k : A → M S B) s e s' :
  m s = (Raise e, s') → Eff.bind m k s = (Raise e, s').
Proof. intros Hm. unfold Eff.bind. by rewrite Hm. Qed.

(** ** Substrings *)

Lemma append_nil (b : string) : "" +:+ b = b.
Proof. reflexivity. Qed.

Lemma append_cons ch (a b : string) : String ch a +:+ b = String ch (a +:+ b).
Proof. reflexivity. Qed.

Lemma append_assoc (a b c : string) : (a +:+ b) +:+ c = a +:+ b +:+ c.
Proof.
  induction a as [|ch a IH]; [done |]. by rewrite !append_cons, IH.
Qed.

Lemma prefix_append (a b : string) : String.prefix a (a +:+ b) = true.
Proof.
  induction a as [|ch a IH].
  - rewrite append_nil. by destruct b.
  - rewrite append_cons. simpl.
    destruct (Ascii.ascii_dec ch ch); [apply IH | done].
Qed.

Lemma contains_prefix (sub s : string) :
  String.prefix sub s = true → contains sub s = true.
Proof.
  intros Hp. destruct s; unfold contains; fold contains; by rewrite Hp.
Qed.

Lemma contains_here (a b : string) : contains a (a +:+ b) = true.
Proof. apply contains_prefix, prefix_append. Qed.

Lemma contains_later (sub p s : string) :
  contains sub s = true → contains sub (p +:+ s) = true.
Proof.
  intros Hs. induction p as [|ch p IH]; [done |].
  rewrite append_cons. simpl. rewrite IH. apply orb_true_r.
Qed.

Lemma contains_inside (sub p q : string) :
  contains sub (p +:+ sub +:+ q) = true.
Proof. apply contains_later, contains_here. Qed.

(** ** Classes and attributes *)

Lemma type_getattr_lookup cls attr v :
  type_getattr cls attr = Ok v → mro_lookup (mro cls) attr = Some v.
Proof.
  unfold type_getattr. destruct (mro_lookup (mro cls) attr); congruence.
Qed.

Lemma getattr_class self attr v :
  ob_dict self !! attr = None →
  mro_lookup (mro (ob_type self)) attr = Some v →
  getattr self attr = Ok v.
Proof. intros Hd Hc. unfold getattr, lookup_attr. by rewrite Hd, Hc. Qed.

(** Read an attribute the instance does not shadow, given its value [H] on
    the class. *)
Ltac read_class_attr H := erewrite getattr_class; [| done | exact H]; simpl.

Lemma getattr_instance self attr v :
  ob_dict self !! attr = Some v → getattr self attr = Ok v.
Proof. intros Hd. unfold getattr, lookup_attr. by rewrite Hd. Qed.





(** What [BaseHTTPError_init] returns when it returns. *)
Lemma BaseHTTPError_init_ok cls context E :
  BaseHTTPError_init cls context = Ok E →
  ∃ message,
    type_getattr cls "message" = Ok message
    ∧ E = {| ob_type := cls;
             ob_dict := {[ "context" := VDict context ]};
             ob_args := [message] |}.
Proof.
  unfold BaseHTTPError_init. destruct (context !! "self"); [done |].
  destruct (type_getattr cls "message") as [message|]; simpl; [| done].
  intros [= <-]. by exists message.
Qed.

Lemma to_dict_constructed cls context message :
  type_getattr cls "message" = Ok message →
  to_dict {| ob_type := cls;
             ob_dict := {[ "context" := VDict context ]};
             ob_args := [message] |}
  = Ok {[ "message" := message; "context" := VDict context ]}.
Proof.
  intros Hm%type_getattr_lookup. unfold to_dict.
  read_class_attr Hm.
  erewrite getattr_instance; [| done]. done.
Qed.

(** ** The registrar, one class at a time *)

Lemma bindings_cons n cls classes :
  bindings n (cls :: classes)
  = (cls, {| fn_id := n; fn_code := code_for cls |}) :: bindings (S n) classes.
Proof.
  unfold bindings. rewrite imap_cons, Nat.add_0_r. f_equal.
  apply imap_ext. intros i c _. simpl. do 3 f_equal. lia.
Qed.

Lemma register_error_family cls rt :
  in_family cls = true →
  register_error cls rt
  = (Ok tt,
     {| next_fn := S (next_fn rt);
        app := {| exception_handlers :=
                    exception_handlers (app rt)
                    ++ [(cls, {| fn_id := next_fn rt;
                                 fn_code := code_for cls |})] |} |}).
Proof.
  unfold in_family, register_error, code_for.
  destruct (issubclass cls BaseHTTPError); simpl; [done |].
  by intros ->.
Qed.

Lemma register_error_outsider cls rt :
  in_family cls = false →
  register_error cls rt = (Raise (TypeError (neither_message cls)), rt).
Proof.
  unfold in_family, register_error.
  destruct (issubclass cls BaseHTTPError); simpl; [done |].
  by intros ->.
Qed.

(** The whole loop: it binds the classes in front of the first outsider and
    stops there. *)
Lemma register_errors_run classes : ∀ rt,
  register_errors classes rt
  = (match first_outsider classes with
     | None => Ok tt
     | Some cls => Raise (TypeError (neither_message cls))
     end,
     {| next_fn := next_fn rt + length (family_prefix classes);
        app := {| exception_handlers :=
                    exception_handlers (app rt)
                    ++ bindings (next_fn rt) (family_prefix classes) |} |}).
Proof.
  induction classes as [|cls classes IH]; intros rt; simpl.
  - unfold Eff.ret. rewrite Nat.add_0_r, app_nil_r. by destruct rt as [? []].
  - destruct (in_family cls) eqn:Hcls.
    + erewrite bind_ok; [| by apply register_error_family].
      rewrite IH. simpl. rewrite bindings_cons, <- app_assoc. simpl.
      do 2 f_equal. lia.
    + erewrite bind_raise; [| by apply register_error_outsider].
      simpl. rewrite Nat.add_0_r, app_nil_r. by destruct rt as [? []].
Qed.

Lemma family_prefix_all classes :
  forallb in_family classes = true →
  family_prefix classes = classes ∧ first_outsider classes = None.
Proof.
  induction classes as [|cls classes IH]; simpl; [done |].
  intros [Hcls Hrest]%andb_true_iff. rewrite Hcls.
  destruct (IH Hrest) as [-> ->]. done.
Qed.

(** A list of classes of the two families is bound in full. *)
Lemma register_errors_all_bound classes rt :
  forallb in_family classes = true →
  register_errors classes rt
  = (Ok tt,
     {| next_fn := next_fn rt + length classes;
        app := {| exception_handlers :=
                    exception_handlers (app rt)
                    ++ bindings (next_fn rt) classes |} |}).
Proof.
  intros [Hbound Hnone]%family_prefix_all.
  by rewrite register_errors_run, Hbound, Hnone.
Qed.

Lemma family_prefix_outsider pre cls post :
  forallb in_family pre = true →
  in_family cls = false →
  family_prefix (pre ++ cls :: post) = pre
  ∧ first_outsider (pre ++ cls :: post) = Some cls.
Proof.
  intros Hpre Hcls. induction pre as [|c pre IH]; simpl in *.
  - by rewrite Hcls.
  - apply andb_true_iff in Hpre as [Hc Hpre]. rewrite Hc.
    destruct (IH Hpre) as [-> ->]. done.
Qed.

Lemma family_prefix_family pre cls post :
  forallb in_family pre = true →
  in_family cls = true →
  family_prefix (pre ++ cls :: post) = pre ++ cls :: family_prefix post.
Proof.
  intros Hpre Hcls. induction pre as [|c pre IH]; simpl in *.
  - by rewrite Hcls.
  - apply andb_true_iff in Hpre as [Hc Hpre]. rewrite Hc.
    by rewrite (IH Hpre).
Qed.

Lemma family_prefix_split classes :
  take (length (family_prefix classes)) classes = family_prefix classes
  ∧ head (drop (length (family_prefix classes)) classes)
    = first_outsider classes
  ∧ forallb in_family (family_prefix classes) = true.
Proof.
  induction classes as [|cls classes (Ht & Hd & Hf)]; simpl; [done |].
  destruct (in_family cls) eqn:Hcls; simpl; [| done].
  by rewrite Ht, Hd, Hcls, Hf.
Qed.

Lemma bindings_fresh n classes :
  NoDup (fn_id ∘ snd <$> bindings n classes)
  ∧ Forall (λ b, n ≤ fn_id b.2 < n + length classes) (bindings n classes).
Proof.
  revert n. induction classes as [|cls classes IH]; intros n.
  - split; [constructor | constructor].
  - rewrite bindings_cons. destruct (IH (S n)) as [Hnd Hall]. split.
    + simpl. constructor; [| done].
      rewrite list_elem_of_fmap. intros ([c h] & Hid & Hin).
      rewrite Forall_forall in Hall. apply Hall in Hin. simpl in *. lia.
    + constructor; [simpl; lia |].
      eapply Forall_impl; [exact Hall |]. intros [c h]. simpl. lia.
Qed.

(** ** Request errors *)

(** C1.  An error built by [BaseHTTPError.__init__] from keyword arguments
    renders, through [to_dict], as the dictionary with exactly the two keys
    [message] and [context]: the message of its class and the keyword
    arguments as they were passed, whatever they are. *)
Theorem to_dict_is_message_and_context cls context E :
  BaseHTTPError_init cls context = Ok E →
  ∃ message body,
    ob_type E = cls
    ∧ type_getattr cls "message" = Ok message
    ∧ to_dict E = Ok body
    ∧ body = {[ "message" := message; "context" := VDict context ]}
    ∧ dom body = ({[ "message"; "context" ]} : gset string).
Proof.
  intros (message & Hm & ->)%BaseHTTPError_init_ok.
  exists message, {[ "message" := message; "context" := VDict context ]}.
  split; [done |]. split; [done |].
  split; [by apply to_dict_constructed |]. split; [done |].
  by rewrite dom_insert_L, dom_singleton_L.
Qed.

Lemma to_dict_is_message_and_context_witness :
  BaseHTTPError_init TestApp.AuthorizationError TestApp.no_token
  = Ok TestApp.unauthorized
  ∧ ∃ message body,
      ob_type TestApp.unauthorized = TestApp.AuthorizationError
      ∧ type_getattr TestApp.AuthorizationError "message" = Ok message
      ∧ to_dict TestApp.unauthorized = Ok body
      ∧ body = {[ "message" := message; "context" := VDict TestApp.no_token ]}
      ∧ dom body = ({[ "message"; "context" ]} : gset string).
Proof.
  split; [reflexivity |].
  apply (to_dict_is_message_and_context
           TestApp.AuthorizationError TestApp.no_token TestApp.unauthorized).
  reflexivity.
Defined.




(** ** Handlers *)

Lemma factory_returns code rt h rt' :
  factory code rt = (Ok h, rt') →
  h = {| fn_id := next_fn rt; fn_code := code |}.
Proof. destruct code; simpl; by intros [= <- _]. Qed.

(** A handler, unfolded: the check, then the hook, then the last action. *)
Lemma call_handler_run h conn error w :
  call_handler h conn error w
  = if isinstance error (expected_base (fn_code h)) then
      match hook error conn w with
      | (Ok _, w') => (terminal_action (fn_code h) error conn, w')
      | (Raise e, w') => (Raise e, w')
      end
    else
      (Raise (TypeError
         (not_derived_message error (expected_base (fn_code h)))), w).
Proof.
  unfold call_handler.
  destruct (fn_code h); simpl;
    unfold http_handle_error, websocket_handle_error;
    (destruct (isinstance error _); simpl; [| done]);
    unfold Eff.bind; destruct (hook error conn w) as [[[]|e] w']; try done.
  - unfold Eff.lift, Eff.ret. by destruct (to_response error conn).
  - unfold Eff.lift, Eff.raise.
    destruct (getattr error "code"); simpl; [| done].
    by destruct (getattr error "reason").
Qed.


(** C4.  A handler built by [create_http_error_handler], called on an
    exception that is not an instance of [BaseHTTPError], raises a
    [TypeError] and returns no response; the world is as it was before the
    call, whatever the hook of the exception would have done to it. *)
Theorem request_handler_rejects_other_errors rt h rt' request error w :
  create_http_error_handler rt = (Ok h, rt') →
  isinstance error BaseHTTPError = false →
  call_handler h request error w
  = (Raise (TypeError
       ("Exception `" +:+ cls_name (ob_type error)
        +:+ "` should be derived from `BaseHTTPError`")), w).
Proof.
  intros ->%(factory_returns HTTPHandler) Herr.
  rewrite call_handler_run. simpl. by rewrite Herr.
Qed.

Lemma request_handler_rejects_other_errors_witness :
  create_http_error_handler TestApp.fresh_app
  = (Ok {| fn_id := 0; fn_code := HTTPHandler |},
     {| next_fn := 1; app := app TestApp.fresh_app |})
  ∧ isinstance (BaseWebSocketError_new TestApp.PolicyViolation [])
      BaseHTTPError = false
  ∧ call_handler {| fn_id := 0; fn_code := HTTPHandler |} TestApp.get_user1
      (BaseWebSocketError_new TestApp.PolicyViolation []) []
    = (Raise (TypeError
         ("Exception `"
          +:+ cls_name
                (ob_type (BaseWebSocketError_new TestApp.PolicyViolation []))
          +:+ "` should be derived from `BaseHTTPError`")), []).
Proof.
  split; [reflexivity |]. split; [reflexivity |].
  apply (request_handler_rejects_other_errors TestApp.fresh_app
           {| fn_id := 0; fn_code := HTTPHandler |}
           {| next_fn := 1; app := app TestApp.fresh_app |});
    reflexivity.
Defined.

(** C5.  A handler built by [create_websocket_error_handler], called on an
    exception that is not an instance of [BaseWebSocketError], raises a
    [TypeError]: not the [WebSocketException] that closes the connection,
    and nothing of the hook has run. *)
Theorem connection_handler_rejects_other_errors rt h rt' websocket error w :
  create_websocket_error_handler rt = (Ok h, rt') →
  isinstance error BaseWebSocketError = false →
  call_handler h websocket error w
  = (Raise (TypeError
       ("Exception `" +:+ cls_name (ob_type error)
        +:+ "` should be derived from `BaseWebSocketError`")), w).
Proof.
  intros ->%(factory_returns WebSocketHandler) Herr.
  rewrite call_handler_run. simpl. by rewrite Herr.
Qed.

Lemma connection_handler_rejects_other_errors_witness :
  create_websocket_error_handler TestApp.fresh_app
  = (Ok {| fn_id := 0; fn_code := WebSocketHandler |},
     {| next_fn := 1; app := app TestApp.fresh_app |})
  ∧ isinstance TestApp.unauthorized BaseWebSocketError = false
  ∧ call_handler {| fn_id := 0; fn_code := WebSocketHandler |}
      TestApp.ws_feed TestApp.unauthorized []
    = (Raise (TypeError
         ("Exception `" +:+ cls_name (ob_type TestApp.unauthorized)
          +:+ "` should be derived from `BaseWebSocketError`")), []).
Proof.
  split; [reflexivity |]. split; [reflexivity |].
  apply (connection_handler_rejects_other_errors TestApp.fresh_app
           {| fn_id := 0; fn_code := WebSocketHandler |}
           {| next_fn := 1; app := app TestApp.fresh_app |});
    reflexivity.
Defined.







(** ** The registrar *)

Lemma length_bindings n classes : length (bindings n classes) = length classes.
Proof. apply length_imap. Qed.

Lemma bindings_lookup n classes i cls :
  classes !! i = Some cls →
  bindings n classes !! i
  = Some (cls, {| fn_id := n + i; fn_code := code_for cls |}).
Proof. intros Hi. unfold bindings. by rewrite list_lookup_imap, Hi. Qed.

(** C3, as the code has it.  [register_errors] goes through the classes in
    the order given, one binding per occurrence, and stops at the first
    class that is in neither family.  Every class in front of that one
    (every class, when there is none) is bound, after the bindings the
    application already had: to a new request handler if it is a subclass of
    [BaseHTTPError], otherwise to a new connection handler.  Each handler is
    a function object of its own: the identities are taken from [next_fn]
    on, and no two are the same.  Nothing else changes, and [None] is
    returned when no class was refused. *)
Theorem register_errors_binds_in_input_order classes rt :
  let bound := family_prefix classes in
  let fresh :=
    imap (λ i cls,
            (cls, {| fn_id := next_fn rt + i;
                     fn_code := if issubclass cls BaseHTTPError
                                then HTTPHandler else WebSocketHandler |}))
         bound in
  register_errors classes rt
  = (match first_outsider classes with
     | None => Ok tt
     | Some cls => Raise (TypeError (neither_message cls))
     end,
     {| next_fn := next_fn rt + length bound;
        app := {| exception_handlers :=
                    exception_handlers (app rt) ++ fresh |} |})
  ∧ take (length bound) classes = bound
  ∧ head (drop (length bound) classes) = first_outsider classes
  ∧ forallb in_family bound = true
  ∧ NoDup (fn_id ∘ snd <$> fresh)
  ∧ Forall (λ b, next_fn rt ≤ fn_id b.2) fresh.
Proof.
  intros bound fresh.
  change fresh with (bindings (next_fn rt) bound).
  destruct (family_prefix_split classes) as (Htake & Hdrop & Hfam).
  destruct (bindings_fresh (next_fn rt) bound) as [Hnd Hall].
  split; [apply register_errors_run |].
  do 4 (split; [done |]).
  eapply Forall_impl; [exact Hall |]. intros b. simpl. lia.
Qed.

(** C3, as the claim has it, fails on a list in which a class of neither
    family comes first: [AuthorizationError] is a request error and is in
    the list, yet the call raises and leaves the application with no
    binding at all. *)
Lemma register_errors_stops_at_outsider :
  [TestApp.ValueError; TestApp.AuthorizationError] !! 1
  = Some TestApp.AuthorizationError
  ∧ issubclass TestApp.AuthorizationError BaseHTTPError = true
  ∧ ∃ msg rt',
      register_errors [TestApp.ValueError; TestApp.AuthorizationError]
        TestApp.fresh_app
      = (Raise (TypeError msg), rt')
      ∧ exception_handlers (app rt') = [].
Proof.
  split; [reflexivity |]. split; [reflexivity |].
  eexists _, _. split; reflexivity.
Qed.

Lemma neither_message_parts cls :
  neither_message cls
  = "Exception `" +:+ cls_name cls +:+ " should be derived from either "
    +:+ "`" +:+ "BaseHTTPError" +:+ "` or `" +:+ "BaseWebSocketError" +:+ "`".
Proof. unfold neither_message, base_name. by rewrite !append_assoc. Qed.

(** C6, as the code has it.  At the first class of the list that is in
    neither family, [register_errors] raises a [TypeError] whose message
    names that class and both base classes.  The classes in front of it are
    bound by then, and none after it. *)
Theorem register_errors_rejects_first_outsider pre cls post rt :
  forallb in_family pre = true →
  in_family cls = false →
  ∃ msg,
    register_errors (pre ++ cls :: post) rt
    = (Raise (TypeError msg),
       {| next_fn := next_fn rt + length pre;
          app := {| exception_handlers :=
                      exception_handlers (app rt)
                      ++ bindings (next_fn rt) pre |} |})
    ∧ msg = "Exception `" +:+ cls_name cls
            +:+ " should be derived from either `BaseHTTPError`"
            +:+ " or `BaseWebSocketError`"
    ∧ contains (cls_name cls) msg = true
    ∧ contains "BaseHTTPError" msg = true
    ∧ contains "BaseWebSocketError" msg = true.
Proof.
  intros Hpre Hcls.
  destruct (family_prefix_outsider pre cls post Hpre Hcls) as [Hbound Hfirst].
  exists (neither_message cls).
  split; [by rewrite register_errors_run, Hbound, Hfirst |].
  rewrite neither_message_parts.
  split; [reflexivity |].
  split; [apply contains_inside |].
  split.
  - do 3 apply contains_later. apply contains_inside.
  - do 5 apply contains_later. apply contains_inside.
Qed.

Lemma register_errors_rejects_first_outsider_witness :
  forallb in_family [TestApp.AuthorizationError; TestApp.GoingAway] = true
  ∧ in_family TestApp.ValueError = false
  ∧ ∃ msg,
      register_errors
        ([TestApp.AuthorizationError; TestApp.GoingAway]
         ++ TestApp.ValueError :: [TestApp.NoUserFoundError])
        TestApp.fresh_app
      = (Raise (TypeError msg),
         {| next_fn :=
              next_fn TestApp.fresh_app
              + length [TestApp.AuthorizationError; TestApp.GoingAway];
            app := {| exception_handlers :=
                        exception_handlers (app TestApp.fresh_app)
                        ++ bindings (next_fn TestApp.fresh_app)
                             [TestApp.AuthorizationError;
                              TestApp.GoingAway] |} |})
      ∧ msg = "Exception `" +:+ cls_name TestApp.ValueError
              +:+ " should be derived from either `BaseHTTPError`"
              +:+ " or `BaseWebSocketError`"
      ∧ contains (cls_name TestApp.ValueError) msg = true
      ∧ contains "BaseHTTPError" msg = true
      ∧ contains "BaseWebSocketError" msg = true.
Proof.
  split; [reflexivity |]. split; [reflexivity |].
  apply (register_errors_rejects_first_outsider
           [TestApp.AuthorizationError; TestApp.GoingAway]
           TestApp.ValueError [TestApp.NoUserFoundError] TestApp.fresh_app);
    reflexivity.
Defined.

(** C6, as the claim has it, fails on a list with two classes of neither
    family: [KeyError] is one of them, but the [TypeError] names
    [ValueError] only, and [ValueError], which comes before [KeyError], has
    not been bound. *)
Lemma register_errors_names_first_outsider_only :
  [TestApp.ValueError; TestApp.KeyError] !! 1 = Some TestApp.KeyError
  ∧ in_family TestApp.KeyError = false
  ∧ ∃ msg rt',
      register_errors [TestApp.ValueError; TestApp.KeyError]
        TestApp.fresh_app
      = (Raise (TypeError msg), rt')
      ∧ contains (cls_name TestApp.KeyError) msg = false
      ∧ exception_handlers (app rt') = [].
Proof.
  split; [reflexivity |]. split; [reflexivity |].
  eexists _, _. split; [reflexivity |]. split; reflexivity.
Qed.

(** C10.  A class that is a subclass of both base classes is bound to a
    request handler: the test for [BaseHTTPError] comes first, one function
    object is made for the class, and it is a request handler.  This holds
    wherever the class stands in the list, as long as the loop reaches
    it. *)
Theorem both_families_get_request_handler pre cls post rt :
  forallb in_family pre = true →
  issubclass cls BaseHTTPError = true →
  issubclass cls BaseWebSocketError = true →
  register_error cls rt
  = (Ok tt,
     {| next_fn := S (next_fn rt);
        app := {| exception_handlers :=
                    exception_handlers (app rt)
                    ++ [(cls, {| fn_id := next_fn rt;
                                 fn_code := HTTPHandler |})] |} |})
  ∧ exception_handlers (app (register_errors (pre ++ cls :: post) rt).2)
    !! (length (exception_handlers (app rt)) + length pre)
    = Some (cls, {| fn_id := next_fn rt + length pre;
                    fn_code := HTTPHandler |}).
Proof.
  intros Hpre Hhttp Hws.
  assert (in_family cls = true) as Hcls.
  { unfold in_family. by rewrite Hhttp. }
  assert (code_for cls = HTTPHandler) as Hcode.
  { unfold code_for. by rewrite Hhttp. }
  split.
  - by rewrite register_error_family, Hcode.
  - rewrite register_errors_run. simpl.
    rewrite (family_prefix_family pre cls post Hpre Hcls).
    rewrite lookup_app_r by lia.
    replace (_ + length pre - _) with (length pre) by lia.
    erewrite bindings_lookup; [by rewrite Hcode |].
    by rewrite list_lookup_middle.
Qed.

Lemma both_families_get_request_handler_witness :
  forallb in_family [TestApp.GoingAway] = true
  ∧ issubclass TestApp.SessionError BaseHTTPError = true
  ∧ issubclass TestApp.SessionError BaseWebSocketError = true
  ∧ register_error TestApp.SessionError TestApp.fresh_app
    = (Ok tt,
       {| next_fn := S (next_fn TestApp.fresh_app);
          app := {| exception_handlers :=
                      exception_handlers (app TestApp.fresh_app)
                      ++ [(TestApp.SessionError,
                           {| fn_id := next_fn TestApp.fresh_app;
                              fn_code := HTTPHandler |})] |} |})
  ∧ exception_handlers
      (app (register_errors
              ([TestApp.GoingAway]
               ++ TestApp.SessionError :: [TestApp.PolicyViolation])
              TestApp.fresh_app).2)
    !! (length (exception_handlers (app TestApp.fresh_app))
        + length [TestApp.GoingAway])
    = Some (TestApp.SessionError,
            {| fn_id := next_fn TestApp.fresh_app + length [TestApp.GoingAway];
               fn_code := HTTPHandler |}).
Proof.
  split; [reflexivity |]. split; [reflexivity |]. split; [reflexivity |].
  apply (both_families_get_request_handler
           [TestApp.GoingAway] TestApp.SessionError
           [TestApp.PolicyViolation] TestApp.fresh_app);
    reflexivity.
Defined.

(** ** The test suite *)

(** The fixture of [tests/test_fastapi.py]: the three request errors,
    registered on a new application. *)
Example fixture_registers_three_handlers :
  register_errors
    [TestApp.AuthorizationError; TestApp.InvalidRequestError;
     TestApp.NoUserFoundError]
    TestApp.fresh_app
  = (Ok tt,
     {| next_fn := 3;
        app := {| exception_handlers :=
          [(TestApp.AuthorizationError,
            {| fn_id := 0; fn_code := HTTPHandler |});
           (TestApp.InvalidRequestError,
            {| fn_id := 1; fn_code := HTTPHandler |});
           (TestApp.NoUserFoundError,
            {| fn_id := 2; fn_code := HTTPHandler |})] |} |}).
Proof. reflexivity. Qed.

(** [test_get_user_no_token]: status 401, the body of
    [AuthorizationError(reason="no token").to_dict()], and the hook has
    logged the message. *)
Example test_get_user_no_token :
  call_handler {| fn_id := 0; fn_code := HTTPHandler |}
    TestApp.get_user1 TestApp.unauthorized []
  = (Ok (Some
       (JSONResponse
          {[ "message" := VStr "Failed to authorize";
             "context" := VDict {[ "reason" := VStr "no token" ]} ]}
          (VInt 401)
          {[ "X-Error-Type" := VStr "AuthorizationError" ]})),
     ["Failed to authorize"]).
Proof. reflexivity. Qed.

(** [test_get_user_invalid_token]: the context also carries the token. *)
Example test_get_user_invalid_token :
  (try E <- BaseHTTPError_init TestApp.AuthorizationError
              {[ "reason" := VStr "no token"; "token" := VStr "?" ]};
   to_response E TestApp.get_user1)
  = Ok (JSONResponse
          {[ "message" := VStr "Failed to authorize";
             "context" := VDict {[ "reason" := VStr "no token";
                                   "token" := VStr "?" ]} ]}
          (VInt 401)
          {[ "X-Error-Type" := VStr "AuthorizationError" ]}).
Proof. reflexivity. Qed.

(** [test_get_invalid_user]: status 404 and the user in the context. *)
Example test_get_invalid_user :
  call_handler {| fn_id := 2; fn_code := HTTPHandler |}
    TestApp.get_user1 TestApp.no_user []
  = (Ok (Some
       (JSONResponse
          {[ "message" := VStr "No such user";
             "context" := VDict {[ "user" := VStr "1" ]} ]}
          (VInt 404)
          {[ "X-Error-Type" := VStr "NoUserFoundError" ]})),
     []).
Proof. reflexivity. Qed.

(** A keyword named [self] never reaches [context]. *)
Example self_is_not_a_context_key :
  BaseHTTPError_init TestApp.AuthorizationError {[ "self" := VInt 1 ]}
  = Raise (TypeError
      "BaseHTTPError.__init__() got multiple values for argument 'self'").
Proof. reflexivity. Qed.

(** A connection error whose hook logs: the record is there when the
    closure is signalled. *)
Example policy_violation_closes :
  call_handler {| fn_id := 0; fn_code := WebSocketHandler |}
    TestApp.ws_feed (BaseWebSocketError_new TestApp.PolicyViolation []) []
  = (Raise (WebSocketException (VInt 1008) (VStr "policy violation")),
     ["policy violation"]).
Proof. reflexivity. Qed.

(** * More of the module *)

(** ** The registrar, call after call *)

Lemma bind_assoc {S A B C} (m : M S A) (k : A → M S B) (k' : B → M S C) s :
  Eff.bind (Eff.bind m k) k' s = Eff.bind m (λ a, Eff.bind (k a) k') s.
Proof. unfold Eff.bind. by destruct (m s) as [[a|e] s']. Qed.

Lemma bind_ext {S A B} (m : M S A) (k k' : A → M S B) s :
  (∀ a s', k a s' = k' a s') → Eff.bind m k s = Eff.bind m k' s.
Proof. intros Hk. unfold Eff.bind. by destruct (m s) as [[a|e] s']. Qed.

(** X1.  Registering a list in one call is registering its front part and
    then the rest in a second call: the same bindings, the same function
    objects, and the same [TypeError] if a class is refused, in which case
    the second call is never made. *)
Theorem register_errors_concat front rest rt :
  register_errors (front ++ rest) rt
  = (register_errors front ;; register_errors rest) rt.
Proof.
  revert rt. induction front as [|cls front IH]; intros rt; simpl.
  - done.
  - rewrite bind_assoc. apply bind_ext. intros _ rt1. apply IH.
Qed.





(** X3.  Function objects are never shared.  If the handlers bound in the
    application are pairwise distinct and all older than [next_fn], then
    after [register_errors] they still are: a handler made by the call is
    distinct from every handler bound before and from every other handler
    the call makes, also when a class occurs twice in the list. *)
Theorem register_errors_keeps_handlers_distinct classes rt :
  NoDup (fn_id ∘ snd <$> exception_handlers (app rt)) →
  Forall (λ b, fn_id b.2 < next_fn rt) (exception_handlers (app rt)) →
  let rt' := (register_errors classes rt).2 in
  NoDup (fn_id ∘ snd <$> exception_handlers (app rt'))
  ∧ Forall (λ b, fn_id b.2 < next_fn rt') (exception_handlers (app rt'))
  ∧ next_fn rt ≤ next_fn rt'.
Proof.
  intros Hnd Hold rt'. subst rt'. rewrite register_errors_run. simpl.
  destruct (bindings_fresh (next_fn rt) (family_prefix classes))
    as [Hnd' Hnew].
  split; [| split; [| lia]].
  - rewrite fmap_app. apply NoDup_app. split; [done |]. split; [| done].
    intros id ([c h] & -> & Hin)%list_elem_of_fmap
      ([c' h'] & Heq & Hin')%list_elem_of_fmap.
    rewrite Forall_forall in Hold, Hnew.
    apply Hold in Hin. apply Hnew in Hin'. simpl in *. lia.
  - apply Forall_app. split.
    + eapply Forall_impl; [exact Hold |]. intros b. simpl. lia.
    + eapply Forall_impl; [exact Hnew |]. intros b. simpl. lia.
Qed.

Lemma register_errors_keeps_handlers_distinct_witness :
  NoDup (fn_id ∘ snd <$> exception_handlers (app TestApp.fresh_app))
  ∧ Forall (λ b, fn_id b.2 < next_fn TestApp.fresh_app)
      (exception_handlers (app TestApp.fresh_app))
  ∧ let rt' :=
      (register_errors [TestApp.AuthorizationError; TestApp.AuthorizationError]
         TestApp.fresh_app).2 in
    NoDup (fn_id ∘ snd <$> exception_handlers (app rt'))
    ∧ Forall (λ b, fn_id b.2 < next_fn rt') (exception_handlers (app rt'))
    ∧ next_fn TestApp.fresh_app ≤ next_fn rt'.
Proof.
  split; [simpl; constructor |]. split; [simpl; constructor |].
  apply (register_errors_keeps_handlers_distinct
           [TestApp.AuthorizationError; TestApp.AuthorizationError]
           TestApp.fresh_app); simpl; constructor.
Defined.

(** ** Classes that leave a constant out *)










(** ** What an error shows of its context *)

(** X8.  [__str__] shows the status code and the message of the class and
    nothing of the context: two errors of one class print the same,
    whatever keywords each was built from, and [args] holds the message
    only. *)
Theorem str_ignores_context format cls context1 context2 E1 E2 code message :
  BaseHTTPError_init cls context1 = Ok E1 →
  BaseHTTPError_init cls context2 = Ok E2 →
  type_getattr cls "status_code" = Ok code →
  type_getattr cls "message" = Ok message →
  BaseHTTPError_str format E1 = Ok (format code +:+ ": " +:+ format message)
  ∧ BaseHTTPError_str format E2 = BaseHTTPError_str format E1
  ∧ ob_args E1 = [message]
  ∧ ob_args E2 = [message].
Proof.
  intros (m1 & Hm1 & ->)%BaseHTTPError_init_ok
    (m2 & Hm2 & ->)%BaseHTTPError_init_ok Hcode Hm.
  assert (m1 = message) as -> by congruence.
  assert (m2 = message) as -> by congruence.
  apply type_getattr_lookup in Hcode, Hm.
  assert (∀ context,
    BaseHTTPError_str format
      {| ob_type := cls;
         ob_dict := {[ "context" := VDict context ]};
         ob_args := [message] |}
    = Ok (format code +:+ ": " +:+ format message)) as Hstr.
  { intros context. unfold BaseHTTPError_str.
    read_class_attr Hcode. read_class_attr Hm. done. }
  by rewrite !Hstr.
Qed.

Lemma str_ignores_context_witness :
  BaseHTTPError_init TestApp.AuthorizationError TestApp.no_token
  = Ok TestApp.unauthorized
  ∧ BaseHTTPError_init TestApp.AuthorizationError
      {[ "reason" := VStr "no token"; "token" := VStr "?" ]}
    = Ok {| ob_type := TestApp.AuthorizationError;
            ob_dict :=
              {[ "context" :=
                   VDict {[ "reason" := VStr "no token";
                            "token" := VStr "?" ]} ]};
            ob_args := [VStr "Failed to authorize"] |}
  ∧ BaseHTTPError_str TestRoutes.show TestApp.unauthorized
    = Ok (TestRoutes.show (VInt 401) +:+ ": "
          +:+ TestRoutes.show (VStr "Failed to authorize"))
  ∧ BaseHTTPError_str TestRoutes.show
      {| ob_type := TestApp.AuthorizationError;
         ob_dict :=
           {[ "context" :=
                VDict {[ "reason" := VStr "no token";
                         "token" := VStr "?" ]} ]};
         ob_args := [VStr "Failed to authorize"] |}
    = BaseHTTPError_str TestRoutes.show TestApp.unauthorized
  ∧ ob_args TestApp.unauthorized = [VStr "Failed to authorize"]
  ∧ ob_args
      {| ob_type := TestApp.AuthorizationError;
         ob_dict :=
           {[ "context" :=
                VDict {[ "reason" := VStr "no token";
                         "token" := VStr "?" ]} ]};
         ob_args := [VStr "Failed to authorize"] |}
    = [VStr "Failed to authorize"].
Proof.
  split; [reflexivity |]. split; [reflexivity |].
  apply (str_ignores_context TestRoutes.show TestApp.AuthorizationError
           TestApp.no_token
           {[ "reason" := VStr "no token"; "token" := VStr "?" ]});
    reflexivity.
Defined.

Lemma Ok_inj {A} (a b : A) : Ok a = Ok b → a = b.
Proof. by intros [= ->]. Qed.

(** X9.  [to_dict] shows all of the context: if two errors render as the
    same dictionary, they were built from the same keywords and their
    classes have the same message. *)
Theorem to_dict_determines_context cls1 cls2 context1 context2 E1 E2 :
  BaseHTTPError_init cls1 context1 = Ok E1 →
  BaseHTTPError_init cls2 context2 = Ok E2 →
  to_dict E1 = to_dict E2 →
  context1 = context2
  ∧ type_getattr cls1 "message" = type_getattr cls2 "message".
Proof.
  intros (m1 & Hm1 & ->)%BaseHTTPError_init_ok
    (m2 & Hm2 & ->)%BaseHTTPError_init_ok.
  rewrite (to_dict_constructed _ _ _ Hm1), (to_dict_constructed _ _ _ Hm2).
  intros Heq%Ok_inj.
  pose proof (f_equal (λ d : namespace, d !! "context") Heq) as Hc.
  pose proof (f_equal (λ d : namespace, d !! "message") Heq) as Hm.
  cbv beta in Hc, Hm.
  rewrite !lookup_insert_ne, !lookup_singleton_eq in Hc by done.
  rewrite !lookup_insert_eq in Hm.
  split; [congruence |]. rewrite Hm1, Hm2. congruence.
Qed.

Lemma to_dict_determines_context_witness :
  BaseHTTPError_init TestApp.AuthorizationError TestApp.no_token
  = Ok TestApp.unauthorized
  ∧ to_dict TestApp.unauthorized = to_dict TestApp.unauthorized
  ∧ TestApp.no_token = TestApp.no_token
  ∧ type_getattr TestApp.AuthorizationError "message"
    = type_getattr TestApp.AuthorizationError "message".
Proof.
  split; [reflexivity |]. split; [reflexivity |].
  apply (to_dict_determines_context
           TestApp.AuthorizationError TestApp.AuthorizationError
           TestApp.no_token TestApp.no_token
           TestApp.unauthorized TestApp.unauthorized);
    reflexivity.
Defined.

(** ** The routes of the test suite *)

Lemma prefix_spec (a s : string) :
  String.prefix a s = true ↔ ∃ q, s = a +:+ q.
Proof.
  revert s. induction a as [|c a IH]; intros s.
  - split; [intros _; by exists s | by destruct s].
  - destruct s as [|c' s]; simpl.
    + split; [done | by intros [q [=]]].
    + destruct (Ascii.ascii_dec c c') as [<- | Hne].
      * rewrite IH. split.
        -- intros [q ->]. by exists q.
        -- intros [q Hq]. rewrite append_cons in Hq.
           injection Hq as ->. by exists q.
      * split; [done |]. intros [q Hq]. rewrite append_cons in Hq.
        by injection Hq as -> _.
Qed.

(** [contains] is Python's [in] on strings: [sub] occurs somewhere
    in [s]. *)
Lemma contains_spec (sub s : string) :
  contains sub s = true ↔ ∃ p q, s = p +:+ sub +:+ q.
Proof.
  split; [| intros (p & q & ->); apply contains_inside].
  induction s as [|c s IH]; unfold contains; fold contains.
  - rewrite orb_false_r. intros [q ->]%prefix_spec. by exists "", q.
  - intros [[q ->]%prefix_spec | (p & q & ->)%IH]%orb_true_iff.
    + by exists "", q.
    + by exists (String c p), q.
Qed.

(** X10.  [authorize] lets a request through exactly when its token is
    [TOKEN].  Otherwise it raises an [AuthorizationError] whose context has
    the reason [no token] and, when a token was sent, that token: a
    rejected token goes into the error, and from there into the response
    body. *)
Theorem authorize_outcome token :
  match TestRoutes.authorize token with
  | Returned _ => token = Some "TOKEN"
  | Raised error =>
      token ≠ Some "TOKEN"
      ∧ ob_type error = TestApp.AuthorizationError
      ∧ ∃ context,
          to_dict error
          = Ok {[ "message" := VStr "Failed to authorize";
                  "context" := VDict context ]}
          ∧ context !! "reason" = Some (VStr "no token")
          ∧ context !! "token" = VStr <$> token
  | Crashed _ => False
  end.
Proof.
  destruct token as [t|]; simpl.
  - destruct (String.eqb t "TOKEN") eqn:Ht; simpl.
    + by apply String.eqb_eq in Ht as ->.
    + apply String.eqb_neq in Ht.
      split; [congruence |]. split; [done |].
      by exists {[ "reason" := VStr "no token"; "token" := VStr t ]}.
  - split; [done |]. split; [done |].
    by exists {[ "reason" := VStr "no token" ]}.
Qed.

(** X11.  [get_user] returns the user exactly when the path segment contains
    [user].  With no segment it raises [InvalidRequestError], and with any
    other segment [NoUserFoundError], the segment in the context. *)
Theorem get_user_outcome user :
  match TestRoutes.get_user user with
  | Returned body =>
      ∃ u p q, user = Some u ∧ u = p +:+ "user" +:+ q
               ∧ body = {[ "user" := VStr u ]}
  | Raised error =>
      (user = None
       ∧ ob_type error = TestApp.InvalidRequestError
       ∧ to_dict error
         = Ok {[ "message" := VStr "Invalid request";
                 "context" := VDict {[ "reason" := VStr "no user" ]} ]})
      ∨ (∃ u, user = Some u
              ∧ contains "user" u = false
              ∧ ob_type error = TestApp.NoUserFoundError
              ∧ to_dict error
                = Ok {[ "message" := VStr "No such user";
                        "context" := VDict {[ "user" := VStr u ]} ]})
  | Crashed _ => False
  end.
Proof.
  destruct user as [u|]; simpl.
  - destruct (contains "user" u) eqn:Hu; simpl.
    + apply contains_spec in Hu as (p & q & Hu). by exists u, p, q.
    + right. by exists u.
  - by left.
Qed.

(** X12.  The tests, for every request.  A request to the router either
    gets the user back, with the right token and a segment that contains
    [user], or ends in an error whose class the fixture has bound; the
    handler bound to it answers with the status code of the class, the
    [to_dict()] of the error as body and the class name in [X-Error-Type]:
    401 for a missing or wrong token, logged by the hook, then 400 for a
    missing segment and 404 for any other one. *)
Theorem every_request_is_answered token user request w :
  match TestRoutes.endpoint token user with
  | Returned body =>
      token = Some "TOKEN"
      ∧ ∃ u, user = Some u ∧ contains "user" u = true
             ∧ body = {[ "user" := VStr u ]}
  | Raised error =>
      ∃ i h code body w',
        exception_handlers (app TestRoutes.registered) !! i
        = Some (ob_type error, h)
        ∧ type_getattr (ob_type error) "status_code" = Ok code
        ∧ to_dict error = Ok body
        ∧ call_handler h request error w
          = (Ok (Some (JSONResponse body code
                         {[ "X-Error-Type" := VStr (cls_name (ob_type error)) ]})),
             w')
        ∧ ((token ≠ Some "TOKEN" ∧ code = VInt 401
            ∧ w' = w ++ ["Failed to authorize"])
           ∨ (token = Some "TOKEN" ∧ user = None ∧ code = VInt 400 ∧ w' = w)
           ∨ (token = Some "TOKEN"
              ∧ (∃ u, user = Some u ∧ contains "user" u = false)
              ∧ code = VInt 404 ∧ w' = w))
  | Crashed _ => False
  end.
Proof.
  assert (∀ context,
    context !! "self" = None →
    ∃ i h code body w',
      exception_handlers (app TestRoutes.registered) !! i
      = Some (TestApp.AuthorizationError, h)
      ∧ type_getattr TestApp.AuthorizationError "status_code" = Ok code
      ∧ to_dict {| ob_type := TestApp.AuthorizationError;
                   ob_dict := {[ "context" := VDict context ]};
                   ob_args := [VStr "Failed to authorize"] |} = Ok body
      ∧ call_handler h request
          {| ob_type := TestApp.AuthorizationError;
             ob_dict := {[ "context" := VDict context ]};
             ob_args := [VStr "Failed to authorize"] |} w
        = (Ok (Some (JSONResponse body code
                       {[ "X-Error-Type" := VStr "AuthorizationError" ]})), w')
      ∧ code = VInt 401 ∧ w' = w ++ ["Failed to authorize"]) as Hauth.
  { intros context _.
    by exists 0, {| fn_id := 0; fn_code := HTTPHandler |}, (VInt 401),
      {[ "message" := VStr "Failed to authorize";
         "context" := VDict context ]}, (w ++ ["Failed to authorize"]). }
  unfold TestRoutes.endpoint.
  destruct token as [t|]; simpl.
  - destruct (String.eqb t "TOKEN") eqn:Ht; simpl.
    + apply String.eqb_eq in Ht as ->.
      destruct user as [u|]; simpl.
      * destruct (contains "user" u) eqn:Hu; simpl.
        -- split; [done |]. by exists u.
        -- exists 2, {| fn_id := 2; fn_code := HTTPHandler |}, (VInt 404),
             {[ "message" := VStr "No such user";
                "context" := VDict {[ "user" := VStr u ]} ]}, w.
           do 4 (split; [reflexivity |]). right. right.
           split; [done |]. split; [by exists u | done].
      * exists 1, {| fn_id := 1; fn_code := HTTPHandler |}, (VInt 400),
          {[ "message" := VStr "Invalid request";
             "context" := VDict {[ "reason" := VStr "no user" ]} ]}, w.
        do 4 (split; [reflexivity |]). right. by left.
    + apply String.eqb_neq in Ht.
      destruct (Hauth {[ "reason" := VStr "no token"; "token" := VStr t ]})
        as (i & h & code & body & w' & Hi & Hc & Hd & Hrun & -> & ->);
        [done |].
      exists i, h, (VInt 401), body, (w ++ ["Failed to authorize"]).
      do 4 (split; [done |]). left. split; [congruence | done].
  - destruct (Hauth {[ "reason" := VStr "no token" ]})
      as (i & h & code & body & w' & Hi & Hc & Hd & Hrun & -> & ->);
      [done |].
    exists i, h, (VInt 401), body, (w ++ ["Failed to authorize"]).
    do 4 (split; [done |]). left. split; [congruence | done].
Qed.
